(** * flask_slack: the command registry, [validate], [dispatch] and [response]

    A shallow embedding of [flask_slack/slack.py] (class [Slack]) and the
    properties of its dispatch layer.

    - Python text is a list of Unicode code points ([list N]); [None] or a
      string is [option (list N)].
    - The dict [self._commands] is a [gmap] from command names to the
      registration tuple [(func, token, methods, kwargs)].
    - Exceptions are an [outcome]; the methods of [Slack] run in a small
      state monad [M] over the Python [world] (the registry and the heap of
      list objects), which also records the handler invocations made.
    - [flask.request], [flask.jsonify] and the registered functions are
      parameters. [Slack.init_app] only stores the application and its
      configuration, which no other method reads; it is left out. *)

From Stdlib Require Import NArith Ascii String.
From stdpp Require Import gmap list fin_maps.

Local Open Scope N_scope.

(** ** Text *)

(** A string literal of the source, as code points. *)
Definition u (s : string) : list N :=
  N_of_ascii <$> list_ascii_of_string s.
Arguments u s%_string : simpl never.

(** [str.isspace] on one character: the code points CPython's
    [Py_UNICODE_ISSPACE] accepts. *)
Definition isspace (c : N) : bool :=
  ((9 <=? c) && (c <=? 13)) || ((28 <=? c) && (c <=? 32))
  || (c =? 133) || (c =? 160) || (c =? 5760)
  || ((8192 <=? c) && (c <=? 8202))
  || (c =? 8232) || (c =? 8233) || (c =? 8239) || (c =? 8287)
  || (c =? 12288).

(** Drop the longest prefix of characters satisfying [p]. *)
Fixpoint lstrip_by (p : N → bool) (s : list N) : list N :=
  match s with
  | [] => []
  | c :: s' => if p c then lstrip_by p s' else s
  end.

Definition rstrip_by (p : N → bool) (s : list N) : list N :=
  reverse (lstrip_by p (reverse s)).

(** [s.strip()]: no argument, whitespace is removed at both ends. *)
Definition strip (s : list N) : list N :=
  rstrip_by isspace (lstrip_by isspace s).

(** [s.lstrip(chars)]: every leading character that occurs in [chars]
    is removed. *)
Definition lstrip (chars : list N) (s : list N) : list N :=
  lstrip_by (λ c, bool_decide (c ∈ chars)) s.

(** [None] or a string, as a truth value: [None] and [''] are false. *)
Definition truthy (v : option (list N)) : bool :=
  match v with
  | Some (_ :: _) => true
  | _ => false
  end.

(** Python's [a or b]. *)
Definition py_or (a b : option (list N)) : option (list N) :=
  if truthy a then a else b.

(** [isinstance(v, string_types)] for a value that is [None] or a string. *)
Definition isinstance_string (v : option (list N)) : bool :=
  match v with
  | Some _ => true
  | None => false
  end.

(** ['{}'.format(v)]: [None] prints as [None], a string as itself. *)
Definition format (v : option (list N)) : list N :=
  match v with
  | Some s => s
  | None => u "None"
  end.

(** ** The request's parameters

    [request.args] and [request.form] are werkzeug [MultiDict]s: the pairs
    of the query string (or form body) in the order of arrival. *)

(** [data.get(key)]: the first value of [key], or [None]. *)
Fixpoint get (data : list (list N * list N)) (key : list N) : option (list N) :=
  match data with
  | [] => None
  | (k, v) :: data' => if decide (k = key) then Some v else get data' key
  end.

Record Request := {
  method : list N;                    (* request.method *)
  args : list (list N * list N);      (* request.args *)
  form : list (list N * list N);      (* request.form *)
}.

(** Lines 53-55 of [dispatch]: the parameter source. *)
Definition select_data (request : Request) : list (list N * list N) :=
  let data := args request in
  if decide (method request = u "POST") then form request else data.

(** Lines 58-61 of [dispatch]: the command name of the request. *)
Definition request_command (data : list (list N * list N)) : option (list N) :=
  let command := py_or (get data (u "command")) (get data (u "trigger_word")) in
  if isinstance_string command
  then (λ s, lstrip (u "/") (strip s)) <$> command
  else command.

(** ** Exceptions and outcomes *)

(** Modelled from the spec: the exception class [SlackError] of
    [flask_slack/exceptions.py], which is not among the sources; a command
    validation error that carries only its message, read back as [e.msg].
    [KeyError] is what a failed dict subscript raises, [Exception] any other
    exception (one raised by a handler). *)
Inductive exn :=
  | SlackError (msg : list N)
  | KeyError (key : option (list N))
  | Exception (name : list N).

Inductive outcome (A : Type) :=
  | Return (a : A)
  | Raise (e : exn).
Arguments Return {A} a.
Arguments Raise {A} e.

(** The dict [data] that [response] hands to [jsonify]; [A] is what the
    [attachments] entry holds: a reference to a list object while the dict
    is in memory, the list's elements once it is serialised. *)
Record envelope (A : Type) := {
  response_type : list N;
  text : list N;
  attachments : A;
}.
Arguments response_type {A} _.
Arguments text {A} _.
Arguments attachments {A} _.

Declare Scope slack_scope.
Delimit Scope slack_scope with slack.

Section Slack.

(** What lies outside [slack.py]: Python objects other than text (as
    registration-time keyword arguments and attachments may be), the
    registered function objects, the responses a view returns, and
    [flask.jsonify], which serialises its keyword arguments. *)
Variable PyObj : Type.
Variable Handler : Type.
Variable Resp : Type.

Inductive value :=
  | Str (s : list N)
  | Obj (o : PyObj).

Variable jsonify : envelope (list value) → Resp.

(** The tuple [(func, token, methods, kwargs)] stored by [command]. *)
Abbreviation registration :=
  (Handler * option (list N) * list (list N) * gmap (list N) value)%type.

(** The Python state the methods of [Slack] act on: the registry
    [self._commands], and the list objects of the heap, a reference being
    an index into [heap].  Each [kwargs] dict is reachable only through
    its registration tuple (a handler receives a copy, by [**kwargs]), so
    it is held in the tuple and an update in place is an update of the
    registry. *)
Record world := {
  _commands : gmap (option (list N)) registration;
  heap : list (list value);
}.

(** [func( **kwargs)] for a registered function: its result or exception,
    and what it does to the state. *)
Variable call : Handler → gmap (list N) value → world → outcome Resp * world.

(** A computation: its outcome, the state it leaves, and the handler
    invocations it made, in order. *)
Definition M (A : Type) : Type :=
  world → outcome A * world * list (Handler * gmap (list N) value).

Definition ret {A} (a : A) : M A := λ w, (Return a, w, []).

Definition raise {A} (e : exn) : M A := λ w, (Raise e, w, []).

Definition bind {A B} (m : M A) (k : A → M B) : M B := λ w,
  match m w with
  | (Return a, w1, t1) => let '(r, w2, t2) := k a w1 in (r, w2, t1 ++ t2)
  | (Raise e, w1, t1) => (Raise e, w1, t1)
  end.

Notation "x <- m ;; k" := (bind m (λ x, k))
  (at level 100, m at next level, right associativity) : slack_scope.
Local Open Scope slack_scope.

(** [try: body] / [except SlackError as e: return handler(e.msg)],
    followed by [rest]; any other exception propagates. *)
Definition try_except_SlackError {A B}
    (body : M A) (handler : list N → M B) (rest : A → M B) : M B := λ w,
  match body w with
  | (Return a, w1, t1) => let '(r, w2, t2) := rest a w1 in (r, w2, t1 ++ t2)
  | (Raise (SlackError msg), w1, t1) =>
      let '(r, w2, t2) := handler msg w1 in (r, w2, t1 ++ t2)
  | (Raise e, w1, t1) => (Raise e, w1, t1)
  end.

(** [command in self._commands] *)
Definition contains (command : option (list N)) : M bool := λ w,
  (Return (bool_decide (is_Some (_commands w !! command))), w, []).

(** [self._commands[command]] *)
Definition getitem (command : option (list N)) : M registration := λ w,
  match _commands w !! command with
  | Some reg => (Return reg, w, [])
  | None => (Raise (KeyError command), w, [])
  end.

(** [kwargs.update(other)] on the [kwargs] dict of [command]'s
    registration: the dict is changed in place, entries of [other]
    replacing those with the same key. The new contents are returned. *)
Definition kwargs_update (command : option (list N))
    (kwargs other : gmap (list N) value) : M (gmap (list N) value) := λ w,
  let kwargs := other ∪ kwargs in
  (Return kwargs,
   {| _commands :=
        alter (λ '(func, token, methods, _), (func, token, methods, kwargs))
              command (_commands w);
      heap := heap w |},
   []).

(** [func( **kwargs)], recorded as an invocation. *)
Definition invoke (func : Handler) (kwargs : gmap (list N) value) : M Resp :=
  λ w, let '(r, w1) := call func kwargs w in (r, w1, [(func, kwargs)]).

(** A list display [[...]]: a new list object. *)
Definition alloc (l : list value) : M nat := λ w,
  (Return (length (heap w)),
   {| _commands := _commands w; heap := heap w ++ [l] |},
   []).

(** A mutation in place of the list object [ref] ([append], [extend],
    item assignment, ...): its elements become [l]. *)
Definition setlist (ref : nat) (l : list value) : M () := λ w,
  (Return (),
   {| _commands := _commands w; heap := <[ref := l]> (heap w) |},
   []).

(** [data.to_dict()]: a plain dict with the first value of each key. *)
Definition to_dict (data : list (list N * list N)) : gmap (list N) value :=
  list_to_map (prod_map id Str <$> data).

(** *** [Slack.__init__] and [Slack.command] *)

(** A new [Slack] object ([self._commands = {}]) in a heap [h]. *)
Definition Slack (h : list (list value)) : world :=
  {| _commands := ∅; heap := h |}.

(** The default of [methods] in [command]: [methods=['GET']]; the default
    of [token] is [None]. *)
Definition default_methods : list (list N) := [u "GET"].

(** [slack.command(command, token, methods, **kwargs)(func)]: the
    decorator applied to [func]. *)
Definition command (command : option (list N)) (token : option (list N))
    (methods : list (list N)) (kwargs : gmap (list N) value)
    (func : Handler) : M Handler := λ w,
  (Return func,
   {| _commands := <[command := (func, token, methods, kwargs)]> (_commands w);
      heap := heap w |},
   []).

(** *** [Slack.validate] *)

Definition validate (command : option (list N)) (token : option (list N))
    (method : list N) : M () :=
  known <- contains command ;;
  if negb known then
    raise (SlackError (u "Command " ++ format command ++ u " is not found"))
  else
    reg <- getitem command ;;
    let '(func, _token, methods, kwargs) := reg in
    if bool_decide (method ∉ methods) then
      raise (SlackError (format (Some method) ++ u " request is not allowed"))
    else if truthy _token && bool_decide (token ≠ _token) then
      raise (SlackError (u "Your token " ++ format token ++ u " is invalid"))
    else
      ret ().

(** *** [Slack.response] *)

(** Lines 109-116: the dict [data]. With [attachments=None] a new empty
    list is created. *)
Definition response_data (text : list N) (response_type : list N)
    (attachments : option nat) : M (envelope nat) :=
  attachments <- match attachments with
                 | None => alloc []
                 | Some l => ret l
                 end ;;
  ret {| response_type := response_type; text := text;
         attachments := attachments |}.

(** [jsonify( **data)]: the list behind [attachments] is read as it is at
    the time of the call. *)
Definition jsonify_kw (data : envelope nat) : M Resp := λ w,
  (Return (jsonify {| response_type := response_type data;
                      text := text data;
                      attachments := heap w !!! attachments data |}),
   w, []).

Definition response (text : list N) (response_type : list N)
    (attachments : option nat) : M Resp :=
  data <- response_data text response_type attachments ;;
  jsonify_kw data.

(** *** [Slack.dispatch] *)

Definition dispatch (request : Request) : M Resp :=
  let method := method request in
  let data := select_data request in
  let token := get data (u "token") in
  let command := request_command data in
  try_except_SlackError (validate command token method)
    (λ msg, response msg (u "ephemeral") None)
    (λ _,
      reg <- getitem command ;;
      let '(func, _, _, kwargs) := reg in
      kwargs <- kwargs_update command kwargs (to_dict data) ;;
      invoke func kwargs).

End Slack.

Arguments Str {PyObj} s.
Arguments Obj {PyObj} o.
Arguments _commands {PyObj Handler} w.
Arguments heap {PyObj Handler} w.
Arguments ret {PyObj Handler A} a w.
Arguments raise {PyObj Handler A} e w.
Arguments bind {PyObj Handler A B} m k w.
Arguments contains {PyObj Handler} command w.
Arguments getitem {PyObj Handler} command w.
Arguments kwargs_update {PyObj Handler} command kwargs other w.
Arguments invoke {PyObj Handler Resp} call func kwargs w.
Arguments alloc {PyObj Handler} l w.
Arguments setlist {PyObj Handler} ref l w.
Arguments to_dict {PyObj} data.
Arguments Slack {PyObj Handler} h.
Arguments command {PyObj Handler} command token methods kwargs func w.
Arguments validate {PyObj Handler} command token method w.
Arguments response_data {PyObj Handler} text response_type attachments w.
Arguments jsonify_kw {PyObj Handler Resp} jsonify data w.
Arguments response {PyObj Handler Resp} jsonify text response_type attachments w.
Arguments dispatch {PyObj Handler Resp} jsonify call request w.

(** ** The command name as the specification words it

    Used only to compare [request_command] with the wording "trim
    surrounding whitespace, then strip at most one leading [/]". *)

Definition slash : N := 47.

(** [t] is [s] without its surrounding whitespace. *)
Definition trimmed (s t : list N) : Prop :=
  ∃ a b, s = a ++ t ++ b
    ∧ Forall (λ c, isspace c = true) a
    ∧ Forall (λ c, isspace c = true) b
    ∧ (∀ c, head t = Some c → isspace c = false)
    ∧ (∀ c, last t = Some c → isspace c = false).

Definition strip_at_most_one_slash (t : list N) : list N :=
  match t with
  | c :: t' => if decide (c = slash) then t' else t
  | [] => []
  end.

Definition command_name_as_specified (s : list N) : list N :=
  strip_at_most_one_slash (strip s).

(** ** A small application

    The registrations and requests the examples below run on: the text is
    the only kind of value, a response is the content of its JSON body, and
    the one registered function is [pong], which returns
    [slack.response('pong')]. *)

Inductive demo_handler := pong.

Definition demo_jsonify (data : envelope (list (@value Empty_set)))
  : envelope (list (@value Empty_set)) := data.

Definition demo_call (func : demo_handler)
    (kwargs : gmap (list N) (@value Empty_set))
    (w : @world Empty_set demo_handler)
  : outcome (envelope (list (@value Empty_set))) * @world Empty_set demo_handler :=
  match func with
  | pong => fst (response demo_jsonify (u "pong") (u "ephemeral") None w)
  end.

(** [@slack.command('ping')] on [pong], in a new [Slack] object. *)
Definition demo_ping : @world Empty_set demo_handler :=
  snd (fst (command (Some (u "ping")) None [u "GET"] ∅ pong (Slack []))).

(** [@slack.command('deploy', token='abc', methods=['POST'], env='prod')]
    on [pong], added to [demo_ping]. *)
Definition demo_app : @world Empty_set demo_handler :=
  snd (fst (command (Some (u "deploy")) (Some (u "abc")) [u "POST"]
                    {[ u "env" := Str (u "prod") ]} pong demo_ping)).

(** [@slack.command('/deploy')] on [pong], added to [demo_ping]: the name
    is written with its slash. *)
Definition demo_slash : @world Empty_set demo_handler :=
  snd (fst (command (Some (u "/deploy")) None default_methods ∅ pong demo_ping)).

Definition GET (args : list (list N * list N)) : Request :=
  {| method := u "GET"; args := args; form := [] |}.

Definition POST (form : list (list N * list N)) : Request :=
  {| method := u "POST"; args := []; form := form |}.

(** * Properties *)

(** ** Trimming *)

Example strip_deploy : strip (u "  /deploy  ") = u "/deploy".
Proof. reflexivity. Qed.

Example request_command_deploy :
  request_command [(u "command", u "  /deploy  ")] = Some (u "deploy").
Proof. reflexivity. Qed.

Example request_command_two_slashes :
  request_command [(u "command", u "//deploy")] = Some (u "deploy").
Proof. reflexivity. Qed.

Lemma lstrip_by_split (p : N → bool) (s : list N) :
  ∃ a, s = a ++ lstrip_by p s
    ∧ Forall (λ c, p c = true) a
    ∧ (∀ c, head (lstrip_by p s) = Some c → p c = false).
Proof.
  induction s as [|c s IH]; simpl.
  - exists []. split_and!; [done | constructor | intros ? [=]].
  - destruct (p c) eqn:Hc.
    + destruct IH as (a & Hs & Ha & Hhd).
      exists (c :: a). split_and!; [simpl; congruence | by constructor | done].
    + exists []. split_and!; [done | constructor |].
      intros c' [= <-]. done.
Qed.

Lemma rstrip_by_split (p : N → bool) (s : list N) :
  ∃ b, s = rstrip_by p s ++ b
    ∧ Forall (λ c, p c = true) b
    ∧ (∀ c, last (rstrip_by p s) = Some c → p c = false).
Proof.
  unfold rstrip_by.
  destruct (lstrip_by_split p (reverse s)) as (a & Hs & Ha & Hhd).
  exists (reverse a). split_and!.
  - rewrite <- reverse_app, <- Hs. by rewrite reverse_involutive.
  - by apply Forall_reverse.
  - intros c. rewrite last_reverse. apply Hhd.
Qed.

Lemma strip_trimmed (s : list N) : trimmed s (strip s).
Proof.
  unfold strip.
  destruct (lstrip_by_split isspace s) as (a & Hs & Ha & Hhd).
  destruct (rstrip_by_split isspace (lstrip_by isspace s)) as (b & Hl & Hb & Hlast).
  exists a, b. split_and!; try done.
  - by rewrite <- Hl.
  - intros c Hc. apply Hhd. rewrite Hl.
    destruct (rstrip_by isspace (lstrip_by isspace s)); [done | exact Hc].
Qed.

Lemma lstrip_slash_split (s : list N) :
  ∃ k, s = replicate k slash ++ lstrip (u "/") s
    ∧ head (lstrip (u "/") s) ≠ Some slash.
Proof.
  unfold lstrip.
  destruct (lstrip_by_split (λ c, bool_decide (c ∈ u "/")) s) as (a & Hs & Ha & Hhd).
  exists (length a). split.
  - rewrite Hs at 1. f_equal.
    clear Hs. induction a as [|c a IH]; [done |].
    apply Forall_cons in Ha as [Hc Ha]. apply bool_decide_eq_true in Hc.
    apply list_elem_of_singleton in Hc as ->. simpl. f_equal. by apply IH.
  - intros Hslash. specialize (Hhd _ Hslash). cbv beta in Hhd.
    apply bool_decide_eq_false in Hhd. apply Hhd. by apply list_elem_of_singleton.
Qed.

(** C2, as the claim words it, fails: of two leading slashes the code
    removes both, the wording only one. *)
Lemma request_command_not_as_specified :
  request_command [(u "command", u "//deploy")] = Some (u "deploy")
  ∧ request_command [(u "command", u "//deploy")]
    ≠ Some (command_name_as_specified (u "//deploy")).
Proof. split; [reflexivity | by vm_compute]. Qed.

(** C2, amended: for every string taken from the [command] (or
    [trigger_word]) field, the extracted command name [r] is what is left
    of it after trimming surrounding whitespace and then stripping every
    leading [/]; and the input ["  /deploy  "] yields ["deploy"]. *)
Theorem request_command_strips_every_slash :
  (∀ data s,
     py_or (get data (u "command")) (get data (u "trigger_word")) = Some s →
     ∃ t k r, request_command data = Some r
       ∧ trimmed s t
       ∧ t = replicate k slash ++ r
       ∧ head r ≠ Some slash)
  ∧ request_command [(u "command", u "  /deploy  ")] = Some (u "deploy").
Proof.
  split; [| reflexivity].
  intros data s Hs. unfold request_command. rewrite Hs. simpl.
  destruct (lstrip_slash_split (strip s)) as (k & Hk & Hhd).
  exists (strip s), k, (lstrip (u "/") (strip s)).
  split_and!; [done | apply strip_trimmed | done | done].
Qed.

Lemma request_command_strips_every_slash_witness :
  ∃ t k r,
    request_command [(u "trigger_word", u " //status ")] = Some r
    ∧ trimmed (u " //status ") t
    ∧ t = replicate k slash ++ r
    ∧ head r ≠ Some slash.
Proof.
  apply (proj1 request_command_strips_every_slash
           [(u "trigger_word", u " //status ")] (u " //status ")).
  reflexivity.
Defined.

(** ** Reading the parameters *)

Lemma get_filter_same (data : list (list N * list N)) (key : list N) :
  get (filter (λ kv, fst kv ≠ key) data) key = None.
Proof.
  induction data as [|[k v] data IH]; [done |].
  rewrite filter_cons. simpl. destruct (decide (k ≠ key)) as [Hne | Heq]; [| done].
  simpl. by rewrite decide_False.
Qed.

Lemma get_filter_other (data : list (list N * list N)) (key key' : list N) :
  key ≠ key' →
  get (filter (λ kv, fst kv ≠ key) data) key' = get data key'.
Proof.
  intros Hkeys. induction data as [|[k v] data IH]; [done |].
  rewrite filter_cons. simpl. destruct (decide (k ≠ key)) as [Hne | Heq]; simpl.
  - by rewrite IH.
  - apply dec_stable in Heq as ->. by rewrite decide_False.
Qed.

(** C9: a [command] field that is present but empty is passed over for the
    [trigger_word] field: the command is extracted from the value of
    [trigger_word], as it is when the [command] key is absent. *)
Theorem request_command_empty_command_falls_back
    (data : list (list N * list N)) (word : list N) :
  get data (u "command") = Some [] →
  get data (u "trigger_word") = Some word →
  request_command data = Some (lstrip (u "/") (strip word))
  ∧ request_command data
    = request_command (filter (λ kv, fst kv ≠ u "command") data).
Proof.
  intros Hcommand Hword.
  assert (Hfirst : request_command data = Some (lstrip (u "/") (strip word))).
  { unfold request_command. by rewrite Hcommand, Hword. }
  split; [done |]. rewrite Hfirst.
  unfold request_command.
  rewrite get_filter_same, get_filter_other, Hword; [done |].
  by vm_compute.
Qed.

Lemma request_command_empty_command_falls_back_witness :
  request_command [(u "command", []); (u "trigger_word", u "/status")]
    = Some (u "status")
  ∧ request_command [(u "command", []); (u "trigger_word", u "/status")]
    = request_command [(u "trigger_word", u "/status")].
Proof.
  apply (request_command_empty_command_falls_back
           [(u "command", []); (u "trigger_word", u "/status")] (u "/status"));
    reflexivity.
Defined.

(** ** [validate] *)

Section Validate.

Context {PyObj Handler : Type}.
Implicit Types (w : @world PyObj Handler) (command token : option (list N)).
Implicit Types (method : list N) (methods : list (list N)).

(** [validate] reads the registry and changes nothing; its outcome is
    settled by the three checks, in this order. *)
Lemma validate_unfold w command token method :
  validate command token method w =
  (match _commands w !! command with
   | None =>
       Raise (SlackError (u "Command " ++ format command ++ u " is not found"))
   | Some (_, _token, methods, _) =>
       if bool_decide (method ∉ methods) then
         Raise (SlackError (method ++ u " request is not allowed"))
       else if truthy _token && bool_decide (token ≠ _token) then
         Raise (SlackError (u "Your token " ++ format token ++ u " is invalid"))
       else Return ()
   end, w, []).
Proof.
  unfold validate, bind, contains, getitem, raise, ret.
  destruct (_commands w !! command) as [[[[func _token] methods] kwargs]|] eqn:Hreg.
  - rewrite bool_decide_true by eauto. cbn. rewrite Hreg. cbn.
    destruct (bool_decide (method ∉ methods)); [done |].
    by destruct (truthy _token && bool_decide (token ≠ _token)).
  - by rewrite bool_decide_false by (intros [? [=]]).
Qed.

(** C3: [validate] checks, in this order, that the command is registered,
    that the method is among the registration's methods, and that the token
    matches a registered secret; the first check to fail gives the one
    error raised, with the message of that check, and when none fails
    [validate] returns, with no value. *)
Theorem validate_first_failing_check w command token method :
  (_commands w !! command = None →
   validate command token method w =
   (Raise (SlackError (u "Command " ++ format command ++ u " is not found")),
    w, []))
  ∧ (∀ func _token methods kwargs,
       _commands w !! command = Some (func, _token, methods, kwargs) →
       (method ∉ methods →
        validate command token method w =
        (Raise (SlackError (method ++ u " request is not allowed")), w, []))
       ∧ (method ∈ methods → truthy _token = true → token ≠ _token →
          validate command token method w =
          (Raise (SlackError (u "Your token " ++ format token ++ u " is invalid")),
           w, []))
       ∧ (method ∈ methods → truthy _token = false ∨ token = _token →
          validate command token method w = (Return (), w, []))).
Proof.
  split.
  - intros Hreg. by rewrite validate_unfold, Hreg.
  - intros func _token methods kwargs Hreg.
    rewrite validate_unfold, Hreg. split_and!.
    + intros Hm. by rewrite bool_decide_true.
    + intros Hm Htruthy Hne.
      rewrite bool_decide_false by (by intros []).
      by rewrite Htruthy, bool_decide_true.
    + intros Hm Hpass.
      rewrite bool_decide_false by (by intros []).
      destruct Hpass as [-> | ->]; [done |].
      rewrite bool_decide_false by (by intros []).
      by rewrite andb_false_r.
Qed.

(** C6: for a command registered with no secret token, or with the empty
    string as its secret, the token check passes whatever token the request
    supplies, an absent one included: [validate] succeeds as soon as the
    method is allowed, and otherwise fails on the method. *)
Theorem validate_without_secret
    w command func _token methods kwargs token method :
  _commands w !! command = Some (func, _token, methods, kwargs) →
  _token = None ∨ _token = Some [] →
  (method ∈ methods →
   validate command token method w = (Return (), w, []))
  ∧ (method ∉ methods →
     validate command token method w =
     (Raise (SlackError (method ++ u " request is not allowed")), w, [])).
Proof.
  intros Hreg Hfalsy. rewrite validate_unfold, Hreg.
  assert (Hcheck : truthy _token = false) by (by destruct Hfalsy as [-> | ->]).
  rewrite Hcheck. split; intros Hm.
  - by rewrite bool_decide_false by (by intros []).
  - by rewrite bool_decide_true.
Qed.

End Validate.

(** ** [response] and [dispatch] *)

Section Dispatch.

Context {PyObj Handler Resp : Type}.
Context (jsonify : envelope (list (@value PyObj)) → Resp).
Context (call : Handler → gmap (list N) (@value PyObj) →
                @world PyObj Handler → outcome Resp * @world PyObj Handler).
Implicit Types (w : @world PyObj Handler) (request : Request).
Implicit Types (command token : option (list N)).

(** [response] with no [attachments] argument: one list object is
    created, and the body is serialised with no attachments. *)
Lemma response_no_attachments (text response_type : list N) w :
  response jsonify text response_type None w =
  (Return (jsonify {| response_type := response_type; text := text;
                      attachments := [] |}),
   {| _commands := _commands w; heap := heap w ++ [[]] |}, []).
Proof.
  unfold response, bind, response_data, alloc, ret, jsonify_kw. cbn.
  by rewrite list_lookup_total_middle.
Qed.

(** The [except] branch of [dispatch]. *)
Lemma dispatch_validation_error request w msg w1 t :
  validate (request_command (select_data request))
           (get (select_data request) (u "token")) (method request) w
    = (Raise (SlackError msg), w1, t) →
  dispatch jsonify call request w =
  (Return (jsonify {| response_type := u "ephemeral"; text := msg;
                      attachments := [] |}),
   {| _commands := _commands w; heap := heap w ++ [[]] |}, []).
Proof.
  intros Hvalidate.
  assert (w1 = w ∧ t = []) as [-> ->].
  { rewrite validate_unfold in Hvalidate. by injection Hvalidate. }
  unfold dispatch, try_except_SlackError. rewrite Hvalidate.
  by rewrite response_no_attachments.
Qed.

(** The path of [dispatch] past [validate]. *)
Lemma dispatch_validated request w w1 t func token methods kwargs :
  validate (request_command (select_data request))
           (get (select_data request) (u "token")) (method request) w
    = (Return (), w1, t) →
  _commands w !! request_command (select_data request)
    = Some (func, token, methods, kwargs) →
  dispatch jsonify call request w =
  invoke call func (to_dict (select_data request) ∪ kwargs)
    {| _commands :=
         <[request_command (select_data request) :=
             (func, token, methods, to_dict (select_data request) ∪ kwargs)]>
           (_commands w);
       heap := heap w |}.
Proof.
  intros Hvalidate Hreg.
  assert (w1 = w ∧ t = []) as [-> ->].
  { rewrite validate_unfold in Hvalidate. by injection Hvalidate. }
  unfold dispatch, try_except_SlackError. rewrite Hvalidate.
  unfold bind, getitem. rewrite Hreg. unfold kwargs_update. cbn.
  rewrite (alter_alt_Some _ _ _ _ Hreg).
  by destruct (invoke _ _ _ _) as [[r w2] t2].
Qed.

Lemma to_dict_lookup (data : list (list N * list N)) (key : list N) :
  @to_dict PyObj data !! key = Str <$> get data key.
Proof.
  unfold to_dict. induction data as [|[k v] data IH]; [done |].
  cbn. rewrite lookup_insert. unfold prod_map; cbn.
  destruct (decide (k = key)); [done | exact IH].
Qed.

(** C4: every error that [validate] raises is a [SlackError], and
    [dispatch] catches it and returns the response whose text is the
    error's message, with response type ["ephemeral"] and no attachments;
    so for a command name that is not registered it returns the response
    with text ["Command c' is not found"]. The registry is left as it was. *)
Theorem dispatch_catches_validation_errors request w :
  let data := select_data request in
  let command := request_command data in
  (∀ e w1 t,
     validate command (get data (u "token")) (method request) w
       = (Raise e, w1, t) →
     ∃ msg, e = SlackError msg
       ∧ dispatch jsonify call request w =
         (Return (jsonify {| response_type := u "ephemeral"; text := msg;
                             attachments := [] |}),
          {| _commands := _commands w; heap := heap w ++ [[]] |}, []))
  ∧ (_commands w !! command = None →
     dispatch jsonify call request w =
     (Return (jsonify {| response_type := u "ephemeral";
                         text := u "Command " ++ format command
                                 ++ u " is not found";
                         attachments := [] |}),
      {| _commands := _commands w; heap := heap w ++ [[]] |}, [])).
Proof.
  intros data command. split.
  - intros e w1 t Hvalidate.
    assert (∃ msg, e = SlackError msg) as [msg ->].
    { rewrite validate_unfold in Hvalidate.
      destruct (_commands w !! command) as [[[[? _token] methods] ?]|];
        [| injection Hvalidate as <- _ _; eauto].
      destruct (bool_decide _); [injection Hvalidate as <- _ _; eauto |].
      destruct (truthy _token && _); [injection Hvalidate as <- _ _; eauto |].
      discriminate Hvalidate. }
    exists msg. split; [done |]. by eapply dispatch_validation_error.
  - intros Hreg. eapply dispatch_validation_error.
    fold data. fold command. by rewrite validate_unfold, Hreg.
Qed.

(** X18: for a command whose registration holds, when the request
    arrives, the methods [methods], the secret [token] and the dict
    [kwargs] (the registered one, or what earlier requests have made of
    it), a request for that command, with a method among [methods] and with
    that token, makes [dispatch] invoke the registered function once, and
    no other, with the request's parameters merged into that [kwargs] (on
    a common key the request's value is the one passed), and return (or
    raise) what the function does. *)
Theorem dispatch_invokes_handler
    request w command func token methods kwargs :
  _commands w !! command = Some (func, token, methods, kwargs) →
  request_command (select_data request) = command →
  method request ∈ methods →
  get (select_data request) (u "token") = token →
  let merged := to_dict (select_data request) ∪ kwargs in
  let w' := {| _commands :=
                 <[command := (func, token, methods, merged)]> (_commands w);
               heap := heap w |} in
  dispatch jsonify call request w =
    (fst (call func merged w'), snd (call func merged w'), [(func, merged)])
  ∧ (∀ key v, get (select_data request) key = Some v →
              merged !! key = Some (Str v))
  ∧ (∀ key, get (select_data request) key = None →
            merged !! key = kwargs !! key).
Proof.
  intros Hreg Hcommand Hmethod Htoken merged w'. split_and!.
  - subst command.
    erewrite dispatch_validated; [| | exact Hreg].
    + unfold invoke. fold merged. fold w'. by destruct (call func merged w').
    + rewrite validate_unfold, Hreg, Htoken.
      rewrite bool_decide_false by (by intros []).
      rewrite (bool_decide_false (token ≠ token)) by (by intros []).
      by rewrite andb_false_r.
  - intros key v Hkey. apply lookup_union_Some_l.
    by rewrite to_dict_lookup, Hkey.
  - intros key Hkey. apply lookup_union_r.
    by rewrite to_dict_lookup, Hkey.
Qed.

(** [dispatch], step by step, on the parameter source [select_data]. *)
Lemma dispatch_unfold request w :
  let data := select_data request in
  dispatch jsonify call request w =
  match validate (request_command data) (get data (u "token"))
                 (method request) w with
  | (Return _, _, _) =>
      match _commands w !! request_command data with
      | Some (func, _token, methods, kwargs) =>
          invoke call func (to_dict data ∪ kwargs)
            {| _commands :=
                 <[request_command data :=
                     (func, _token, methods, to_dict data ∪ kwargs)]>
                   (_commands w);
               heap := heap w |}
      | None => (Raise (KeyError (request_command data)), w, [])
      end
  | (Raise (SlackError msg), _, _) =>
      (Return (jsonify {| response_type := u "ephemeral"; text := msg;
                          attachments := [] |}),
       {| _commands := _commands w; heap := heap w ++ [[]] |}, [])
  | (Raise e, _, _) => (Raise e, w, [])
  end.
Proof.
  intros data. subst data.
  destruct (validate _ _ _ w) as [[[[]|e] w1] t] eqn:Hvalidate.
  - destruct (_commands w !! _) as [[[[func _token] methods] kwargs]|] eqn:Hreg.
    + by eapply dispatch_validated.
    + by rewrite validate_unfold, Hreg in Hvalidate.
  - destruct e as [msg | key | name].
    + by eapply dispatch_validation_error.
    + rewrite validate_unfold in Hvalidate.
      repeat case_match; simplify_eq.
    + rewrite validate_unfold in Hvalidate.
      repeat case_match; simplify_eq.
Qed.

(** C7: [dispatch] takes its parameters from the query parameters when the
    method is [GET], from the form parameters when it is [POST], and from
    the query parameters for every other method. From that source, [data],
    it reads the token and the command (or trigger word) that it validates,
    and the arguments it merges into the registration's [kwargs] for the
    handler; its result depends on the request only through the method and
    that source. *)
Theorem dispatch_parameter_source :
  (∀ request, method request = u "GET" → select_data request = args request)
  ∧ (∀ request, method request = u "POST" → select_data request = form request)
  ∧ (∀ request, method request ≠ u "GET" → method request ≠ u "POST" →
       select_data request = args request)
  ∧ (∀ request1 request2 w,
       method request1 = method request2 →
       select_data request1 = select_data request2 →
       dispatch jsonify call request1 w = dispatch jsonify call request2 w)
  ∧ (∀ request w,
       let data :=
         if decide (method request = u "GET") then args request
         else if decide (method request = u "POST") then form request
         else args request in
       let token := get data (u "token") in
       let command := request_command data in
       dispatch jsonify call request w =
       match validate command token (method request) w with
       | (Return _, _, _) =>
           match _commands w !! command with
           | Some (func, _token, methods, kwargs) =>
               invoke call func (to_dict data ∪ kwargs)
                 {| _commands :=
                      <[command :=
                          (func, _token, methods, to_dict data ∪ kwargs)]>
                        (_commands w);
                    heap := heap w |}
           | None => (Raise (KeyError command), w, [])
           end
       | (Raise (SlackError msg), _, _) =>
           (Return (jsonify {| response_type := u "ephemeral"; text := msg;
                               attachments := [] |}),
            {| _commands := _commands w; heap := heap w ++ [[]] |}, [])
       | (Raise e, _, _) => (Raise e, w, [])
       end).
Proof.
  split_and!.
  - intros request Hmethod. unfold select_data. by rewrite Hmethod.
  - intros request Hmethod. unfold select_data. by rewrite decide_True.
  - intros request _ Hmethod. unfold select_data. by rewrite decide_False.
  - intros request1 request2 w Hmethod Hdata. unfold dispatch.
    by rewrite Hmethod, Hdata.
  - intros request w data token command. subst token command.
    assert (Hdata : data = select_data request).
    { unfold data, select_data.
      destruct (decide (method request = u "GET")) as [Hget|];
        destruct (decide (method request = u "POST")) as [Hpost|]; try done.
      rewrite Hget in Hpost. vm_compute in Hpost. discriminate Hpost. }
    rewrite Hdata. apply dispatch_unfold.
Qed.

(** C10: when the parameters hold neither a [command] nor a
    [trigger_word] key, the command is [None] (no trimming: it is not a
    string), and with no registration under [None] [dispatch] returns the
    response with type ["ephemeral"], text ["Command None is not found"]
    and no attachments. *)
Theorem dispatch_without_command request w :
  get (select_data request) (u "command") = None →
  get (select_data request) (u "trigger_word") = None →
  _commands w !! None = None →
  request_command (select_data request) = None
  ∧ dispatch jsonify call request w =
    (Return (jsonify {| response_type := u "ephemeral";
                        text := u "Command None is not found";
                        attachments := [] |}),
     {| _commands := _commands w; heap := heap w ++ [[]] |}, []).
Proof.
  intros Hcommand Hword Hreg.
  assert (Hnone : request_command (select_data request) = None).
  { unfold request_command. by rewrite Hcommand, Hword. }
  split; [done |].
  eapply dispatch_validation_error.
  by rewrite validate_unfold, Hnone, Hreg.
Qed.

(** C8: a call of [response] with no [attachments] argument builds its
    dict on a list object of its own, new and empty: not an object of the
    heap before the call, not the one of an earlier such call, whatever has
    been done to that one since; changing either list leaves the other as
    it is, and the second response is serialised with no attachments. *)
Theorem response_data_fresh_attachments
    (text1 type1 text2 type2 : list N) w :
  ∃ data1 w1,
    response_data text1 type1 None w = (Return data1, w1, [])
    ∧ heap w !! attachments data1 = None
    ∧ heap w1 !! attachments data1 = Some []
    ∧ ∀ l1 : list (@value PyObj),
        let w1' := snd (fst (setlist (attachments data1) l1 w1)) in
        ∃ data2 w2,
          response_data text2 type2 None w1' = (Return data2, w2, [])
          ∧ attachments data2 ≠ attachments data1
          ∧ heap w2 !! attachments data1 = Some l1
          ∧ heap w2 !! attachments data2 = Some []
          ∧ response jsonify text2 type2 None w1' =
            (Return (jsonify {| response_type := type2; text := text2;
                                attachments := [] |}), w2, [])
          ∧ ∀ l2 : list (@value PyObj),
              let w2' := snd (fst (setlist (attachments data2) l2 w2)) in
              heap w2' !! attachments data1 = Some l1
              ∧ heap w2' !! attachments data2 = Some l2.
Proof.
  eexists _, _. split; [reflexivity |]. cbn.
  assert (Hlen : ∀ l1 : list (@value PyObj),
            length (<[length (heap w) := l1]> (heap w ++ [[]]))
            = S (length (heap w))).
  { intros l1. rewrite length_insert, length_app. cbn. lia. }
  assert (Hfirst : ∀ l1 : list (@value PyObj),
            <[length (heap w) := l1]> (heap w ++ [[]]) !! length (heap w)
            = Some l1).
  { intros l1. apply list_lookup_insert_eq. rewrite length_app. cbn. lia. }
  split_and!.
  - by apply lookup_ge_None.
  - by apply list_lookup_middle.
  - intros l1. eexists _, _. split; [reflexivity |]. cbn.
    rewrite Hlen. split_and!.
    + lia.
    + rewrite lookup_app_l by (rewrite Hlen; lia). apply Hfirst.
    + by apply list_lookup_middle.
    + by rewrite list_lookup_total_middle by (by rewrite Hlen).
    + intros l2. split.
      * rewrite list_lookup_insert_ne by lia.
        rewrite lookup_app_l by (rewrite Hlen; lia). apply Hfirst.
      * apply list_lookup_insert_eq. rewrite length_app, Hlen. cbn. lia.
Qed.

End Dispatch.

(** ** The registry across calls *)

Section Registry.

Context {PyObj Handler Resp : Type}.
Context (jsonify : envelope (list (@value PyObj)) → Resp).
Context (call : Handler → gmap (list N) (@value PyObj) →
                @world PyObj Handler → outcome Resp * @world PyObj Handler).
Implicit Types (w : @world PyObj Handler) (request : Request).
Implicit Types (token : option (list N)) (methods : list (list N)).

(** X1: registration inserts or overwrites the record of its command and
    leaves every other record as it is: the last registration of a name is
    the one in force. *)
Theorem command_registers
    (name name' : option (list N)) (token : option (list N))
    (methods : list (list N)) (kwargs : gmap (list N) (@value PyObj))
    (func : Handler) w :
  _commands (snd (fst (command name token methods kwargs func w))) !! name'
  = if decide (name = name') then Some (func, token, methods, kwargs)
    else _commands w !! name'.
Proof. unfold command. cbn. apply lookup_insert. Qed.

(** X2: [validate] only reads: it leaves the state as it is and invokes no
    handler. *)
Theorem validate_reads_only w (name : option (list N)) token method :
  snd (fst (validate name token method w)) = w
  ∧ snd (validate name token method w) = [].
Proof. by rewrite validate_unfold. Qed.

(** X3: a request for a registered command with a method outside the
    registration's methods is answered by the text
    ["{method} request is not allowed"]. *)
Theorem dispatch_method_not_allowed
    request w func token methods kwargs :
  _commands w !! request_command (select_data request)
    = Some (func, token, methods, kwargs) →
  method request ∉ methods →
  dispatch jsonify call request w =
  (Return (jsonify {| response_type := u "ephemeral";
                      text := method request ++ u " request is not allowed";
                      attachments := [] |}),
   {| _commands := _commands w; heap := heap w ++ [[]] |}, []).
Proof.
  intros Hreg Hmethod. eapply dispatch_validation_error.
  rewrite validate_unfold, Hreg. by rewrite bool_decide_true.
Qed.

(** X4: a request for a command registered with a non-empty secret, with an
    allowed method and another token, is answered by the text
    ["Your token {token} is invalid"]. *)
Theorem dispatch_invalid_token
    request w func token methods kwargs :
  _commands w !! request_command (select_data request)
    = Some (func, token, methods, kwargs) →
  method request ∈ methods →
  truthy token = true →
  get (select_data request) (u "token") ≠ token →
  dispatch jsonify call request w =
  (Return (jsonify {| response_type := u "ephemeral";
                      text := u "Your token "
                              ++ format (get (select_data request) (u "token"))
                              ++ u " is invalid";
                      attachments := [] |}),
   {| _commands := _commands w; heap := heap w ++ [[]] |}, []).
Proof.
  intros Hreg Hmethod Htruthy Htoken. eapply dispatch_validation_error.
  rewrite validate_unfold, Hreg.
  rewrite bool_decide_false by (by intros []).
  by rewrite Htruthy, bool_decide_true.
Qed.

(** X5: when the registered functions leave the registry alone, every
    validated dispatch (a request for which [validate] returns) still
    changes it: the registration of the request's command holds, after the
    call, the request's parameters merged into its [kwargs]. *)
Theorem dispatch_stores_request_parameters
    request w (name : option (list N)) func token methods kwargs w1 t :
  (∀ f kw w0, _commands (snd (call f kw w0)) = _commands w0) →
  _commands w !! name = Some (func, token, methods, kwargs) →
  request_command (select_data request) = name →
  validate name (get (select_data request) (u "token")) (method request) w
    = (Return (), w1, t) →
  _commands (snd (fst (dispatch jsonify call request w))) !! name
  = Some (func, token, methods, to_dict (select_data request) ∪ kwargs).
Proof.
  intros Hcall Hreg Hcommand Hvalidate. subst name.
  erewrite dispatch_validated; [| exact Hvalidate | exact Hreg].
  unfold invoke.
  destruct (call func _ _) as [r w2] eqn:Hresult. cbn.
  change w2 with (snd (r, w2)). rewrite <- Hresult, Hcall. cbn.
  apply lookup_insert_eq.
Qed.

End Registry.

(** ** What [dispatch] does and never does *)

(** Whitespace alone is trimmed to the empty string. *)
Lemma lstrip_by_all (p : N → bool) (s : list N) :
  Forall (λ c, p c = true) s → lstrip_by p s = [].
Proof.
  induction 1 as [|c s Hc _ IH]; [done |]. cbn. by rewrite Hc.
Qed.

Lemma strip_all_space (s : list N) :
  Forall (λ c, isspace c = true) s → strip s = [].
Proof. intros Hs. unfold strip. by rewrite (lstrip_by_all _ _ Hs). Qed.

(** The last character of what [lstrip] leaves is the last character of
    its argument. *)
Lemma lstrip_by_last (p : N → bool) (s : list N) (c : N) :
  last (lstrip_by p s) = Some c → last s = Some c.
Proof.
  destruct (lstrip_by_split p s) as (a & Hs & _ & _).
  intros Hlast. rewrite Hs, last_app. by rewrite Hlast.
Qed.

Lemma request_command_shape (data : list (list N * list N)) (r : list N) :
  request_command data = Some r →
  head r ≠ Some slash ∧ (∀ c, last r = Some c → isspace c = false).
Proof.
  unfold request_command.
  destruct (py_or _ _) as [s|]; [| discriminate].
  cbn. intros [= <-]. split.
  - by destruct (lstrip_slash_split (strip s)) as (k & _ & Hhd).
  - intros c Hc%lstrip_by_last.
    destruct (strip_trimmed s) as (a & b & _ & _ & _ & _ & Hlast). by apply Hlast.
Qed.

Section Safety.

Context {PyObj Handler Resp : Type}.
Context (jsonify : envelope (list (@value PyObj)) → Resp).
Context (call : Handler → gmap (list N) (@value PyObj) →
                @world PyObj Handler → outcome Resp * @world PyObj Handler).
Implicit Types (w : @world PyObj Handler) (request : Request).
Implicit Types (name token : option (list N)) (methods : list (list N)).
Implicit Types (kwargs : gmap (list N) (@value PyObj)) (func : Handler).

(** [validate] either returns, for a registered command whose method and
    token checks pass, or raises a [SlackError]. *)
Lemma validate_cases w name token method :
  (∃ func _token methods kwargs,
     _commands w !! name = Some (func, _token, methods, kwargs)
     ∧ method ∈ methods
     ∧ (truthy _token = false ∨ token = _token)
     ∧ validate name token method w = (Return (), w, []))
  ∨ (∃ msg, validate name token method w = (Raise (SlackError msg), w, [])).
Proof.
  rewrite validate_unfold.
  destruct (_commands w !! name) as [[[[func _token] methods] kwargs]|];
    [| right; eauto].
  destruct (bool_decide (method ∉ methods)) eqn:Hmethod; [right; eauto |].
  destruct (truthy _token && bool_decide (token ≠ _token)) eqn:Htoken;
    [right; eauto |].
  left. exists func, _token, methods, kwargs. split_and!; try done.
  - apply bool_decide_eq_false in Hmethod. by apply dec_stable.
  - apply andb_false_iff in Htoken as [Htruthy | Heq]; [by left | right].
    apply bool_decide_eq_false in Heq. by apply dec_stable.
Qed.

(** The two ways through [dispatch]: the error response, or the call of
    the registered function on the registry with its [kwargs] updated. *)
Lemma dispatch_cases request w :
  let data := select_data request in
  let name := request_command data in
  (∃ msg,
     validate name (get data (u "token")) (method request) w
       = (Raise (SlackError msg), w, [])
     ∧ dispatch jsonify call request w =
       (Return (jsonify {| response_type := u "ephemeral"; text := msg;
                           attachments := [] |}),
        {| _commands := _commands w; heap := heap w ++ [[]] |}, []))
  ∨ (∃ func _token methods kwargs,
       _commands w !! name = Some (func, _token, methods, kwargs)
       ∧ method request ∈ methods
       ∧ (truthy _token = false ∨ get data (u "token") = _token)
       ∧ dispatch jsonify call request w =
         invoke call func (to_dict data ∪ kwargs)
           {| _commands :=
                <[name := (func, _token, methods, to_dict data ∪ kwargs)]>
                  (_commands w);
              heap := heap w |}).
Proof.
  intros data name.
  destruct (validate_cases w name (get data (u "token")) (method request))
    as [(func & _token & methods & kwargs & Hreg & Hmethod & Htoken & Hvalidate)
       | [msg Hvalidate]].
  - right. exists func, _token, methods, kwargs. split_and!; try done.
    by eapply dispatch_validated.
  - left. exists msg. split; [done |]. by eapply dispatch_validation_error.
Qed.

Lemma invoke_outcome func kwargs w :
  (fst (fst (invoke call func kwargs w)), snd (fst (invoke call func kwargs w)))
  = call func kwargs w.
Proof. unfold invoke. by destruct (call func kwargs w). Qed.

Lemma invoke_trace func kwargs w :
  snd (invoke call func kwargs w) = [(func, kwargs)].
Proof. unfold invoke. by destruct (call func kwargs w). Qed.

Lemma invoke_world func kwargs w :
  snd (fst (invoke call func kwargs w)) = snd (call func kwargs w).
Proof. unfold invoke. by destruct (call func kwargs w). Qed.

(** X6: [dispatch] raises nothing of its own. Either [validate] raises
    its [SlackError], and [dispatch] returns a response (with response type
    ["ephemeral"], the error's message and no attachments) and has invoked
    no function; or [validate] returns, and [dispatch] has invoked one
    function, once, and its outcome and final state are those of that call
    (an exception of the function, a [SlackError] included, is the outcome
    of [dispatch]: line 71 is outside the [try]). The subscript
    [self._commands[command]] after [validate] never raises [KeyError]. *)
Theorem dispatch_returns_or_calls_once request w :
  let data := select_data request in
  (∃ msg,
     validate (request_command data) (get data (u "token")) (method request) w
       = (Raise (SlackError msg), w, [])
     ∧ dispatch jsonify call request w =
       (Return (jsonify {| response_type := u "ephemeral"; text := msg;
                           attachments := [] |}),
        {| _commands := _commands w; heap := heap w ++ [[]] |}, []))
  ∨ (∃ func kwargs w',
       validate (request_command data) (get data (u "token")) (method request) w
         = (Return (), w, [])
       ∧ snd (dispatch jsonify call request w) = [(func, kwargs)]
       ∧ fst (dispatch jsonify call request w) = call func kwargs w').
Proof.
  intros data. subst data.
  destruct (dispatch_cases request w)
    as [(msg & Hvalidate & Hdispatch)
       | (func & _token & methods & kwargs & Hreg & Hmethod & Htoken & Hdispatch)].
  - left. eauto.
  - right.
    exists func, (to_dict (select_data request) ∪ kwargs),
      {| _commands :=
           <[request_command (select_data request) :=
               (func, _token, methods, to_dict (select_data request) ∪ kwargs)]>
             (_commands w);
         heap := heap w |}.
    rewrite Hdispatch. split_and!; [| apply invoke_trace |].
    + rewrite validate_unfold, Hreg.
      rewrite bool_decide_false by (by intros []).
      destruct Htoken as [-> | <-]; [done |].
      rewrite (bool_decide_false (_ ≠ _)) by (by intros []).
      by rewrite andb_false_r.
    + rewrite <- invoke_outcome. by destruct (invoke _ _ _ _) as [[? ?] ?].
Qed.

(** X7: [dispatch] invokes a function only for an authorised request: the
    function is the one registered under the request's command, the
    request's method is among the registration's methods, the request's
    token equals the registration's secret when that secret is set and not
    empty, and the arguments are the request's parameters merged into the
    registration's [kwargs]. *)
Theorem dispatch_invokes_only_authorised request w func kwargs :
  (func, kwargs) ∈ snd (dispatch jsonify call request w) →
  ∃ _token methods kwargs0,
    _commands w !! request_command (select_data request)
      = Some (func, _token, methods, kwargs0)
    ∧ method request ∈ methods
    ∧ (truthy _token = true → get (select_data request) (u "token") = _token)
    ∧ kwargs = to_dict (select_data request) ∪ kwargs0.
Proof.
  destruct (dispatch_cases request w)
    as [(msg & _ & Hdispatch)
       | (func0 & _token & methods & kwargs0 & Hreg & Hmethod & Htoken & Hdispatch)];
    rewrite Hdispatch.
  - cbn. by intros ?%elem_of_nil.
  - rewrite invoke_trace. intros [= -> ->]%list_elem_of_singleton.
    exists _token, methods, kwargs0. split_and!; try done.
    intros Htruthy. destruct Htoken as [Hfalsy | ?]; [congruence | done].
Qed.

(** X8: when [validate] returns, the command is registered, the method is
    among the registration's methods, and the supplied token equals the
    registered secret whenever that secret is set and not empty. *)
Theorem validate_accepts_only w name token method w1 t :
  validate name token method w = (Return (), w1, t) →
  ∃ func _token methods kwargs,
    _commands w !! name = Some (func, _token, methods, kwargs)
    ∧ method ∈ methods
    ∧ (truthy _token = true → token = _token).
Proof.
  intros Hvalidate.
  destruct (validate_cases w name token method)
    as [(func & _token & methods & kwargs & Hreg & Hmethod & Htoken & _)
       | [msg Hraise]]; [| congruence].
  exists func, _token, methods, kwargs. split_and!; try done.
  intros Htruthy. destruct Htoken as [Hfalsy | ?]; [congruence | done].
Qed.

(** X9: the command name [dispatch] looks up never begins with [/] and
    never ends with whitespace. So a registration under a name [s] that
    does is out of reach, whatever else is registered: the command of no
    request is [s]; the lookup of a request's command, and the outcome of
    [validate] for it, are what they are with the registration under [s]
    removed; and a function that [dispatch] invokes is registered under
    another name. *)
Theorem dispatch_never_reaches_untrimmed_names request w (s : list N) :
  head s = Some slash ∨ (∃ c, last s = Some c ∧ isspace c = true) →
  let data := select_data request in
  let removed := {| _commands := delete (Some s) (_commands w);
                    heap := heap w |} in
  request_command data ≠ Some s
  ∧ _commands w !! request_command data
    = _commands removed !! request_command data
  ∧ fst (fst (validate (request_command data) (get data (u "token"))
                       (method request) w))
    = fst (fst (validate (request_command data) (get data (u "token"))
                         (method request) removed))
  ∧ (∀ func kwargs,
       (func, kwargs) ∈ snd (dispatch jsonify call request w) →
       ∃ name _token methods kwargs0,
         name ≠ Some s
         ∧ _commands w !! name = Some (func, _token, methods, kwargs0)).
Proof.
  intros Hshape data removed. subst data removed.
  assert (Hname : request_command (select_data request) ≠ Some s).
  { intros Heq. destruct (request_command_shape _ _ Heq) as [Hhd Hlast].
    destruct Hshape as [Hslash | (c & Hc & Hspace)]; [done |].
    specialize (Hlast _ Hc). congruence. }
  assert (Hlookup : _commands w !! request_command (select_data request)
                    = delete (Some s) (_commands w)
                        !! request_command (select_data request)).
  { by rewrite lookup_delete_ne. }
  split_and!; [done | done | |].
  - rewrite !validate_unfold. cbn [_commands fst snd]. by rewrite <- Hlookup.
  - intros func kwargs.
    destruct (dispatch_cases request w)
      as [(msg & _ & Hdispatch)
         | (func0 & _token & methods & kwargs0 & Hreg & _ & _ & Hdispatch)];
      rewrite Hdispatch.
    + cbn. by intros ?%elem_of_nil.
    + rewrite invoke_trace. intros [= -> ->]%list_elem_of_singleton.
      by exists (request_command (select_data request)), _token, methods, kwargs0.
Qed.

(** X10: a [command] field that holds only whitespace is not empty, so
    [trigger_word] is not consulted, and the command name is the empty
    string. *)
Theorem request_command_blank_command
    (data : list (list N * list N)) (s : list N) :
  get data (u "command") = Some s →
  s ≠ [] →
  Forall (λ c, isspace c = true) s →
  request_command data = Some [].
Proof.
  intros Hcommand Hne Hspace. unfold request_command. rewrite Hcommand.
  destruct s as [|c s]; [done |].
  change (Some (lstrip (u "/") (strip (c :: s))) = Some []).
  by rewrite (strip_all_space _ Hspace).
Qed.

(** X11: registration followed by a request: once [func] is registered
    for a name, a request whose command is that name, whose method is among
    [methods] and whose token passes, is dispatched to [func], whatever was
    registered under the name before. *)
Theorem command_then_dispatch
    w name token methods kwargs func request :
  request_command (select_data request) = name →
  method request ∈ methods →
  truthy token = false ∨ get (select_data request) (u "token") = token →
  dispatch jsonify call request
    (snd (fst (command name token methods kwargs func w)))
  = invoke call func (to_dict (select_data request) ∪ kwargs)
      {| _commands :=
           <[name := (func, token, methods,
                      to_dict (select_data request) ∪ kwargs)]> (_commands w);
         heap := heap w |}.
Proof.
  intros Hname Hmethod Htoken. subst name. unfold command. cbn.
  erewrite dispatch_validated.
  - cbn. by rewrite insert_insert_eq.
  - rewrite validate_unfold. cbn. rewrite lookup_insert_eq.
    rewrite bool_decide_false by (by intros []).
    destruct Htoken as [-> | ->]; [done |].
    rewrite (bool_decide_false (token ≠ token)) by (by intros []).
    by rewrite andb_false_r.
  - cbn. apply lookup_insert_eq.
Qed.

(** X12: registering a command changes the outcome of [validate] for no
    other command name. *)
Theorem command_keeps_other_commands
    w name token methods kwargs func name' token' method :
  name ≠ name' →
  fst (fst (validate name' token' method
              (snd (fst (command name token methods kwargs func w)))))
  = fst (fst (validate name' token' method w)).
Proof.
  intros Hne. rewrite !validate_unfold. unfold command. cbn.
  by rewrite lookup_insert_ne.
Qed.

(** X13: a new [Slack] object has no command: every request is answered
    by "Command ... is not found". *)
Theorem dispatch_on_new_Slack (h : list (list (@value PyObj))) request :
  dispatch jsonify call request (Slack h) =
  (Return (jsonify {| response_type := u "ephemeral";
                      text := u "Command "
                              ++ format (request_command (select_data request))
                              ++ u " is not found";
                      attachments := [] |}),
   {| _commands := ∅; heap := h ++ [[]] |}, []).
Proof.
  eapply dispatch_validation_error.
  rewrite validate_unfold. cbn. by rewrite lookup_empty.
Qed.

(** The registry after [dispatch], when the registered functions leave it
    alone. *)
Lemma dispatch_registry request w :
  (∀ f kw w0, _commands (snd (call f kw w0)) = _commands w0) →
  let data := select_data request in
  let name := request_command data in
  _commands (snd (fst (dispatch jsonify call request w)))
  = match validate name (get data (u "token")) (method request) w with
    | (Return _, _, _) =>
        alter (λ '(func, _token, methods, kwargs),
                 (func, _token, methods, to_dict data ∪ kwargs))
              name (_commands w)
    | _ => _commands w
    end.
Proof.
  intros Hcall data name. subst data name.
  destruct (dispatch_cases request w)
    as [(msg & Hvalidate & Hdispatch)
       | (func & _token & methods & kwargs & Hreg & Hmethod & Htoken & Hdispatch)];
    rewrite Hdispatch.
  - by rewrite Hvalidate.
  - rewrite invoke_world, Hcall. cbn [_commands].
    rewrite (alter_alt_Some _ _ _ _ Hreg).
    destruct (validate_cases w (request_command (select_data request))
                (get (select_data request) (u "token")) (method request))
      as [(? & ? & ? & ? & _ & _ & _ & ->) | [msg Hraise]]; [done |].
    exfalso. rewrite validate_unfold, Hreg in Hraise.
    rewrite bool_decide_false in Hraise by (by intros []).
    destruct Htoken as [Hfalsy | Heq].
    + by rewrite Hfalsy in Hraise.
    + rewrite (bool_decide_false (_ ≠ _)) in Hraise by (by intros []).
      by rewrite andb_false_r in Hraise.
Qed.

(** X14: when the registered functions leave the registry alone,
    [dispatch] adds and removes no registration and changes no function,
    token or methods; the [kwargs] of a registration lose no key, and only
    those of the request's own command can change. *)
Theorem dispatch_preserves_registrations request w name :
  (∀ f kw w0, _commands (snd (call f kw w0)) = _commands w0) →
  let w' := snd (fst (dispatch jsonify call request w)) in
  (_commands w !! name = None → _commands w' !! name = None)
  ∧ (∀ func _token methods kwargs,
       _commands w !! name = Some (func, _token, methods, kwargs) →
       ∃ kwargs',
         _commands w' !! name = Some (func, _token, methods, kwargs')
         ∧ (∀ key, is_Some (kwargs !! key) → is_Some (kwargs' !! key))
         ∧ (name ≠ request_command (select_data request) → kwargs' = kwargs)).
Proof.
  intros Hcall w'. unfold w'. rewrite (dispatch_registry request w Hcall).
  destruct (validate _ _ _ w) as [[[[]|e] w1] t].
  - split.
    + intros Hnone. rewrite lookup_alter.
      case_decide as Hname; [subst name; by rewrite Hnone | done].
    + intros func _token methods kwargs Hreg. rewrite lookup_alter.
      case_decide as Hname.
      * subst name. rewrite Hreg. cbn.
        eexists. split_and!; [done | | done].
        intros key [v Hkey]. rewrite lookup_union.
        rewrite Hkey. by destruct (to_dict _ !! key).
      * exists kwargs. split_and!; [done | done | done].
  - split; [done |]. intros func _token methods kwargs Hreg. eauto.
Qed.

(** X15: two requests for one command, one after the other: the function
    is invoked for the second with the parameters of the second merged into
    those of the first merged into the registered [kwargs]; a parameter
    of the first request that the second does not carry is passed again. *)
Theorem dispatch_twice
    request1 request2 w name func token methods kwargs :
  (∀ f kw w0, _commands (snd (call f kw w0)) = _commands w0) →
  _commands w !! name = Some (func, token, methods, kwargs) →
  request_command (select_data request1) = name →
  request_command (select_data request2) = name →
  method request1 ∈ methods →
  method request2 ∈ methods →
  truthy token = false
  ∨ (get (select_data request1) (u "token") = token
     ∧ get (select_data request2) (u "token") = token) →
  snd (dispatch jsonify call request2
         (snd (fst (dispatch jsonify call request1 w))))
  = [(func, to_dict (select_data request2)
            ∪ (to_dict (select_data request1) ∪ kwargs))].
Proof.
  intros Hcall Hreg Hname1 Hname2 Hmethod1 Hmethod2 Htoken.
  assert (Hpass : ∀ request w0 kwargs0,
            request_command (select_data request) = name →
            method request ∈ methods →
            (truthy token = false ∨ get (select_data request) (u "token") = token) →
            _commands w0 !! name = Some (func, token, methods, kwargs0) →
            validate name (get (select_data request) (u "token"))
                     (method request) w0 = (Return (), w0, [])).
  { intros request w0 kwargs0 _ Hmethod Htok Hreg0.
    rewrite validate_unfold, Hreg0.
    rewrite bool_decide_false by (by intros []).
    destruct Htok as [-> | ->]; [done |].
    rewrite (bool_decide_false (token ≠ token)) by (by intros []).
    by rewrite andb_false_r. }
  assert (Htoken1 : truthy token = false
                    ∨ get (select_data request1) (u "token") = token)
    by (destruct Htoken as [? | [? ?]]; auto).
  assert (Htoken2 : truthy token = false
                    ∨ get (select_data request2) (u "token") = token)
    by (destruct Htoken as [? | [? ?]]; auto).
  set (w1 := snd (fst (dispatch jsonify call request1 w))).
  assert (Hreg1 : _commands w1 !! name
                  = Some (func, token, methods,
                          to_dict (select_data request1) ∪ kwargs)).
  { unfold w1. rewrite (dispatch_registry request1 w Hcall), Hname1.
    rewrite (Hpass request1 w kwargs Hname1 Hmethod1 Htoken1 Hreg).
    by rewrite lookup_alter_eq, Hreg. }
  erewrite dispatch_validated.
  - apply invoke_trace.
  - rewrite Hname2. exact (Hpass request2 w1 _ Hname2 Hmethod2 Htoken2 Hreg1).
  - by rewrite Hname2.
Qed.

(** X16: a command registered with the defaults of [command] (no token,
    [methods=['GET']]) passes [validate] for a [GET] request whatever its
    token, and for any other method fails with
    ["{method} request is not allowed"]. *)
Theorem validate_default_registration
    w name kwargs func token method :
  let w' := snd (fst (command name None default_methods kwargs func w)) in
  (method = u "GET" → validate name token method w' = (Return (), w', []))
  ∧ (method ≠ u "GET" →
     validate name token method w' =
     (Raise (SlackError (method ++ u " request is not allowed")), w', [])).
Proof.
  intros w'. rewrite validate_unfold. unfold w', command. cbn.
  rewrite lookup_insert_eq. split.
  - intros ->. rewrite bool_decide_false; [done |].
    intros Hnot. apply Hnot. by apply list_elem_of_singleton.
  - intros Hmethod. rewrite bool_decide_true; [done |].
    by intros ?%list_elem_of_singleton.
Qed.

(** X17: [response] with a list given for [attachments] creates no
    object and changes nothing: the body carries the elements the list has
    at the time of the call, so a change made to the list before the call
    is in the body. *)
Theorem response_given_attachments
    (text response_type : list N) (ref : nat) (l : list (@value PyObj)) w :
  (ref < length (heap w))%nat →
  let w' := snd (fst (setlist ref l w)) in
  response jsonify text response_type (Some ref) w' =
  (Return (jsonify {| response_type := response_type; text := text;
                      attachments := l |}), w', []).
Proof.
  intros Href w'. unfold response, bind, response_data, ret, jsonify_kw. cbn.
  erewrite list_lookup_total_correct; [done |].
  by apply list_lookup_insert_eq.
Qed.

End Safety.

(** ** The small application *)

(** The end-to-end example: [ping], registered for [GET] with no token,
    answers a [GET] request with [command=ping] by ["pong"]. *)
Example dispatch_ping :
  fst (fst (dispatch demo_jsonify demo_call (GET [(u "command", u "ping")])
                     demo_ping))
  = Return {| response_type := u "ephemeral"; text := u "pong";
              attachments := [] |}.
Proof. reflexivity. Qed.

Lemma demo_app_deploy :
  _commands demo_app !! Some (u "deploy")
  = Some (pong, Some (u "abc"), [u "POST"], {[ u "env" := Str (u "prod") ]}).
Proof. reflexivity. Qed.

Lemma demo_ping_ping :
  _commands demo_ping !! Some (u "ping") = Some (pong, None, [u "GET"], ∅).
Proof. reflexivity. Qed.

Lemma validate_first_failing_check_witness :
  validate (Some (u "status")) (Some (u "xyz")) (u "GET") demo_app
    = (Raise (SlackError (u "Command status is not found")), demo_app, [])
  ∧ validate (Some (u "deploy")) (Some (u "xyz")) (u "GET") demo_app
    = (Raise (SlackError (u "GET request is not allowed")), demo_app, [])
  ∧ validate (Some (u "deploy")) (Some (u "xyz")) (u "POST") demo_app
    = (Raise (SlackError (u "Your token xyz is invalid")), demo_app, [])
  ∧ validate (Some (u "deploy")) (Some (u "abc")) (u "POST") demo_app
    = (Return (), demo_app, []).
Proof.
  split_and!.
  - apply (proj1 (validate_first_failing_check
                    demo_app (Some (u "status")) (Some (u "xyz")) (u "GET"))).
    reflexivity.
  - apply (proj1 (proj2 (validate_first_failing_check
                           demo_app (Some (u "deploy")) (Some (u "xyz")) (u "GET"))
                        _ _ _ _ demo_app_deploy)).
    intros Hin%list_elem_of_singleton. discriminate Hin.
  - apply (proj1 (proj2 (proj2 (validate_first_failing_check
                           demo_app (Some (u "deploy")) (Some (u "xyz")) (u "POST"))
                        _ _ _ _ demo_app_deploy))).
    + by apply list_elem_of_singleton.
    + reflexivity.
    + discriminate.
  - apply (proj2 (proj2 (proj2 (validate_first_failing_check
                           demo_app (Some (u "deploy")) (Some (u "abc")) (u "POST"))
                        _ _ _ _ demo_app_deploy))).
    + by apply list_elem_of_singleton.
    + by right.
Defined.

Lemma validate_without_secret_witness :
  validate (Some (u "ping")) (Some (u "xyz")) (u "GET") demo_ping
    = (Return (), demo_ping, [])
  ∧ validate (Some (u "ping")) None (u "GET") demo_ping
    = (Return (), demo_ping, []).
Proof.
  split.
  - apply (proj1 (validate_without_secret demo_ping (Some (u "ping")) pong None
                    [u "GET"] ∅ (Some (u "xyz")) (u "GET")
                    demo_ping_ping (or_introl eq_refl))).
    by apply list_elem_of_singleton.
  - apply (proj1 (validate_without_secret demo_ping (Some (u "ping")) pong None
                    [u "GET"] ∅ None (u "GET")
                    demo_ping_ping (or_introl eq_refl))).
    by apply list_elem_of_singleton.
Defined.

Lemma dispatch_catches_validation_errors_witness :
  dispatch demo_jsonify demo_call (GET [(u "command", u "/status")]) demo_app
  = (Return {| response_type := u "ephemeral";
               text := u "Command status is not found";
               attachments := [] |},
     {| _commands := _commands demo_app; heap := [[]] |}, []).
Proof.
  apply (proj2 (dispatch_catches_validation_errors demo_jsonify demo_call
                  (GET [(u "command", u "/status")]) demo_app)).
  reflexivity.
Defined.

Lemma dispatch_invokes_handler_witness :
  let form := [(u "command", u "/deploy"); (u "token", u "abc");
               (u "env", u "staging")] in
  let merged : gmap (list N) (@value Empty_set) :=
    {[ u "command" := Str (u "/deploy"); u "token" := Str (u "abc");
       u "env" := Str (u "staging") ]} in
  snd (dispatch demo_jsonify demo_call (POST form) demo_app) = [(pong, merged)]
  ∧ fst (fst (dispatch demo_jsonify demo_call (POST form) demo_app))
    = Return {| response_type := u "ephemeral"; text := u "pong";
                attachments := [] |}
  ∧ merged !! u "env" = Some (Str (u "staging")).
Proof.
  intros form merged.
  destruct (dispatch_invokes_handler demo_jsonify demo_call (POST form) demo_app
              (Some (u "deploy")) pong (Some (u "abc")) [u "POST"]
              {[ u "env" := Str (u "prod") ]} demo_app_deploy eq_refl)
    as (Hdispatch & Hrequest & _).
  - by apply list_elem_of_singleton.
  - reflexivity.
  - split_and!.
    + rewrite Hdispatch. reflexivity.
    + rewrite Hdispatch. reflexivity.
    + reflexivity.
Defined.

Lemma dispatch_parameter_source_witness :
  select_data {| method := u "GET"; args := [(u "command", u "a")];
                 form := [(u "command", u "b")] |} = [(u "command", u "a")]
  ∧ select_data {| method := u "POST"; args := [(u "command", u "a")];
                   form := [(u "command", u "b")] |} = [(u "command", u "b")]
  ∧ select_data {| method := u "PUT"; args := [(u "command", u "a")];
                   form := [(u "command", u "b")] |} = [(u "command", u "a")]
  ∧ dispatch demo_jsonify demo_call
      {| method := u "GET"; args := [(u "command", u "ping")];
         form := [(u "command", u "deploy")] |} demo_app
    = dispatch demo_jsonify demo_call (GET [(u "command", u "ping")]) demo_app
  ∧ snd (dispatch demo_jsonify demo_call
           {| method := u "POST";
              args := [(u "command", u "ping"); (u "token", u "xyz")];
              form := [(u "command", u "deploy"); (u "token", u "abc")] |}
           demo_app)
    = [(pong, {[ u "command" := Str (u "deploy"); u "token" := Str (u "abc");
                 u "env" := Str (u "prod") ]})].
Proof.
  destruct (dispatch_parameter_source demo_jsonify demo_call)
    as (Hget & Hpost & Hother & Hsame & Hreads).
  split_and!.
  - by apply Hget.
  - by apply Hpost.
  - by apply Hother.
  - by apply Hsame.
  - rewrite Hreads. vm_compute. reflexivity.
Defined.

Lemma dispatch_without_command_witness :
  request_command (select_data (GET [(u "text", u "hello")])) = None
  ∧ dispatch demo_jsonify demo_call (GET [(u "text", u "hello")]) demo_app
    = (Return {| response_type := u "ephemeral";
                 text := u "Command None is not found";
                 attachments := [] |},
       {| _commands := _commands demo_app; heap := [[]] |}, []).
Proof.
  apply (dispatch_without_command demo_jsonify demo_call
           (GET [(u "text", u "hello")]) demo_app); reflexivity.
Defined.

(** C1 fails on the code: [kwargs.update] changes the registration's own
    [kwargs] dict. [ping] is registered with no keyword arguments; after a
    request with [text=hello], the registration holds the parameters of
    that request, and a later request that carries no [text] has
    [text=hello] passed to its handler, where the same request on the
    registry as registered passes none. *)
Theorem dispatch_changes_registered_kwargs :
  let request1 := GET [(u "command", u "ping"); (u "text", u "hello")] in
  let request2 := GET [(u "command", u "ping")] in
  let w1 := snd (fst (dispatch demo_jsonify demo_call request1 demo_ping)) in
  _commands demo_ping !! Some (u "ping") = Some (pong, None, [u "GET"], ∅)
  ∧ _commands w1 !! Some (u "ping")
    = Some (pong, None, [u "GET"],
            {[ u "command" := Str (u "ping"); u "text" := Str (u "hello") ]})
  ∧ snd (dispatch demo_jsonify demo_call request2 w1)
    = [(pong, {[ u "command" := Str (u "ping");
                 u "text" := Str (u "hello") ]})]
  ∧ snd (dispatch demo_jsonify demo_call request2 demo_ping)
    = [(pong, {[ u "command" := Str (u "ping") ]})].
Proof. by vm_compute. Qed.

(** C5 fails on the code, by the defect of C1: the handler is passed more
    than the merge of the registered extra parameters and the request's
    parameters. [deploy] is registered with [env=prod]; after a request
    with [text=hello], a second request that carries no [text] has its
    handler invoked (once) with [text=hello], a key that is neither among
    the registered extra parameters nor in the request. *)
Theorem dispatch_passes_earlier_parameters :
  let request1 := POST [(u "command", u "deploy"); (u "token", u "abc");
                        (u "text", u "hello")] in
  let request2 := POST [(u "command", u "deploy"); (u "token", u "abc")] in
  let registered : gmap (list N) (@value Empty_set) :=
    {[ u "env" := Str (u "prod") ]} in
  let w1 := snd (fst (dispatch demo_jsonify demo_call request1 demo_app)) in
  _commands demo_app !! Some (u "deploy")
    = Some (pong, Some (u "abc"), [u "POST"], registered)
  ∧ get (select_data request2) (u "text") = None
  ∧ (to_dict (select_data request2) ∪ registered) !! u "text" = None
  ∧ snd (dispatch demo_jsonify demo_call request2 w1)
    = [(pong, {[ u "command" := Str (u "deploy"); u "token" := Str (u "abc");
                 u "env" := Str (u "prod"); u "text" := Str (u "hello") ]})]
  ∧ snd (dispatch demo_jsonify demo_call request2 demo_app)
    = [(pong, to_dict (select_data request2) ∪ registered)].
Proof. cbv zeta. split_and!; vm_compute; reflexivity. Qed.

Lemma dispatch_method_not_allowed_witness :
  dispatch demo_jsonify demo_call
    (GET [(u "command", u "deploy"); (u "token", u "abc")]) demo_app
  = (Return {| response_type := u "ephemeral";
               text := u "GET request is not allowed";
               attachments := [] |},
     {| _commands := _commands demo_app; heap := [[]] |}, []).
Proof.
  apply (dispatch_method_not_allowed demo_jsonify demo_call
           (GET [(u "command", u "deploy"); (u "token", u "abc")]) demo_app
           _ _ _ _ demo_app_deploy).
  intros Hin%list_elem_of_singleton. discriminate Hin.
Defined.

Lemma dispatch_invalid_token_witness :
  dispatch demo_jsonify demo_call
    (POST [(u "command", u "deploy"); (u "token", u "xyz")]) demo_app
  = (Return {| response_type := u "ephemeral";
               text := u "Your token xyz is invalid";
               attachments := [] |},
     {| _commands := _commands demo_app; heap := [[]] |}, []).
Proof.
  apply (dispatch_invalid_token demo_jsonify demo_call
           (POST [(u "command", u "deploy"); (u "token", u "xyz")]) demo_app
           _ _ _ _ demo_app_deploy).
  - by apply list_elem_of_singleton.
  - reflexivity.
  - discriminate.
Defined.

Lemma demo_call_keeps_registry func kwargs w :
  _commands (snd (demo_call func kwargs w)) = _commands w.
Proof. by destruct func. Qed.

Lemma dispatch_stores_request_parameters_witness :
  _commands
    (snd (fst (dispatch demo_jsonify demo_call
                 (GET [(u "command", u "ping"); (u "token", u "xyz")])
                 demo_ping)))
    !! Some (u "ping")
  = Some (pong, None, [u "GET"],
          {[ u "command" := Str (u "ping"); u "token" := Str (u "xyz") ]}).
Proof.
  apply (dispatch_stores_request_parameters demo_jsonify demo_call
           (GET [(u "command", u "ping"); (u "token", u "xyz")]) demo_ping
           (Some (u "ping")) pong None [u "GET"] ∅ demo_ping []
           demo_call_keeps_registry demo_ping_ping eq_refl).
  reflexivity.
Defined.

Lemma dispatch_invokes_only_authorised_witness :
  ∃ _token methods kwargs0,
    _commands demo_ping
      !! request_command (select_data (GET [(u "command", u "ping")]))
      = Some (pong, _token, methods, kwargs0)
    ∧ method (GET [(u "command", u "ping")]) ∈ methods
    ∧ (truthy _token = true →
       get (select_data (GET [(u "command", u "ping")])) (u "token") = _token)
    ∧ ({[ u "command" := Str (u "ping") ]} : gmap (list N) (@value Empty_set))
      = to_dict (select_data (GET [(u "command", u "ping")])) ∪ kwargs0.
Proof.
  apply (dispatch_invokes_only_authorised demo_jsonify demo_call
           (GET [(u "command", u "ping")]) demo_ping pong
           {[ u "command" := Str (u "ping") ]}).
  apply list_elem_of_here.
Defined.

Lemma validate_accepts_only_witness :
  ∃ func _token methods kwargs,
    _commands demo_app !! Some (u "deploy")
      = Some (func, _token, methods, kwargs)
    ∧ u "POST" ∈ methods
    ∧ (truthy _token = true → Some (u "abc") = _token).
Proof.
  apply (validate_accepts_only demo_app (Some (u "deploy")) (Some (u "abc"))
           (u "POST") demo_app []).
  reflexivity.
Defined.

(** [ping] and [/deploy] are registered; a request for [/deploy] looks up
    [deploy] and finds nothing. *)
Example dispatch_slash_deploy :
  dispatch demo_jsonify demo_call (GET [(u "command", u "/deploy")]) demo_slash
  = (Return {| response_type := u "ephemeral";
               text := u "Command deploy is not found";
               attachments := [] |},
     {| _commands := _commands demo_slash; heap := [[]] |}, []).
Proof. reflexivity. Qed.

Lemma dispatch_never_reaches_untrimmed_names_witness :
  let request := GET [(u "command", u "/deploy")] in
  let data := select_data request in
  let removed := {| _commands := delete (Some (u "/deploy")) (_commands demo_slash);
                    heap := heap demo_slash |} in
  request_command data ≠ Some (u "/deploy")
  ∧ _commands demo_slash !! request_command data
    = _commands removed !! request_command data
  ∧ fst (fst (validate (request_command data) (get data (u "token"))
                       (method request) demo_slash))
    = fst (fst (validate (request_command data) (get data (u "token"))
                         (method request) removed))
  ∧ (∀ func kwargs,
       (func, kwargs) ∈ snd (dispatch demo_jsonify demo_call request demo_slash) →
       ∃ name _token methods kwargs0,
         name ≠ Some (u "/deploy")
         ∧ _commands demo_slash !! name = Some (func, _token, methods, kwargs0)).
Proof.
  exact (dispatch_never_reaches_untrimmed_names demo_jsonify demo_call
           (GET [(u "command", u "/deploy")]) demo_slash (u "/deploy")
           (or_introl eq_refl)).
Defined.

Lemma request_command_blank_command_witness :
  request_command [(u "command", u "  "); (u "trigger_word", u "status")]
  = Some [].
Proof.
  apply (request_command_blank_command
           [(u "command", u "  "); (u "trigger_word", u "status")] (u "  ")).
  - reflexivity.
  - discriminate.
  - by repeat constructor.
Defined.

Lemma command_then_dispatch_witness :
  snd (dispatch demo_jsonify demo_call (GET [(u "command", u "/ping")])
         (snd (fst (command (Some (u "ping")) None default_methods ∅ pong
                            demo_app))))
  = [(pong, {[ u "command" := Str (u "/ping") ]})].
Proof.
  rewrite (command_then_dispatch demo_jsonify demo_call demo_app
             (Some (u "ping")) None default_methods ∅ pong
             (GET [(u "command", u "/ping")])).
  - by vm_compute.
  - reflexivity.
  - by apply list_elem_of_singleton.
  - by left.
Defined.

Lemma command_keeps_other_commands_witness :
  fst (fst (validate (Some (u "ping")) None (u "GET")
              (snd (fst (command (Some (u "deploy")) (Some (u "abc"))
                                 [u "POST"] ∅ pong demo_ping)))))
  = fst (fst (validate (Some (u "ping")) None (u "GET") demo_ping)).
Proof.
  apply (command_keeps_other_commands demo_ping (Some (u "deploy"))
           (Some (u "abc")) [u "POST"] ∅ pong (Some (u "ping")) None (u "GET")).
  discriminate.
Defined.

Lemma dispatch_preserves_registrations_witness :
  let w' := snd (fst (dispatch demo_jsonify demo_call
                        (GET [(u "command", u "ping"); (u "text", u "hello")])
                        demo_app)) in
  (_commands demo_app !! Some (u "deploy") = None →
   _commands w' !! Some (u "deploy") = None)
  ∧ (∀ func _token methods kwargs,
       _commands demo_app !! Some (u "deploy")
         = Some (func, _token, methods, kwargs) →
       ∃ kwargs',
         _commands w' !! Some (u "deploy")
           = Some (func, _token, methods, kwargs')
         ∧ (∀ key, is_Some (kwargs !! key) → is_Some (kwargs' !! key))
         ∧ (Some (u "deploy")
              ≠ request_command
                  (select_data
                     (GET [(u "command", u "ping"); (u "text", u "hello")])) →
            kwargs' = kwargs)).
Proof.
  exact (dispatch_preserves_registrations demo_jsonify demo_call
           (GET [(u "command", u "ping"); (u "text", u "hello")]) demo_app
           (Some (u "deploy")) demo_call_keeps_registry).
Defined.

Lemma dispatch_twice_witness :
  snd (dispatch demo_jsonify demo_call (GET [(u "command", u "ping")])
         (snd (fst (dispatch demo_jsonify demo_call
                      (GET [(u "command", u "ping"); (u "text", u "hello")])
                      demo_ping))))
  = [(pong,
      to_dict [(u "command", u "ping")]
      ∪ (to_dict [(u "command", u "ping"); (u "text", u "hello")] ∪ ∅))].
Proof.
  apply (dispatch_twice demo_jsonify demo_call
           (GET [(u "command", u "ping"); (u "text", u "hello")])
           (GET [(u "command", u "ping")]) demo_ping (Some (u "ping"))
           pong None [u "GET"] ∅ demo_call_keeps_registry demo_ping_ping
           eq_refl eq_refl).
  - by apply list_elem_of_singleton.
  - by apply list_elem_of_singleton.
  - by left.
Defined.

Lemma response_given_attachments_witness :
  response demo_jsonify (u "done") (u "in_channel") (Some 0%nat)
    (snd (fst (setlist 0 [Str (u "build 7")]
                       (@Slack Empty_set demo_handler [[]]))))
  = (Return {| response_type := u "in_channel"; text := u "done";
               attachments := [Str (u "build 7")] |},
     snd (fst (setlist 0 [Str (u "build 7")]
                      (@Slack Empty_set demo_handler [[]]))), []).
Proof.
  apply (response_given_attachments demo_jsonify (u "done") (u "in_channel")
           0%nat [Str (u "build 7")] (@Slack Empty_set demo_handler [[]])).
  cbn. lia.
Defined.
